(** * The maintenance-mode gate of the web3.storage API

    A shallow embedding of [packages/api/src/maintenance.js] and the
    properties of the middleware [withMode] that its description states.

    JavaScript values are modelled as follows.
    - A mode is a JavaScript string; it is a [string] here.  Comparison with
      [===] and membership with [Array.prototype.includes] are content
      equality on strings, [String.eqb].
    - A handler may read and change anything it can reach and may throw, so
      a handler is a function into the computation type [Comp W], a state
      and exception monad over a world [W] chosen by the handler.  The gate
      itself never touches the world.
    - [throw] is the left injection of the result; there is no [try] in the
      source, so a raised value always reaches the caller. *)

From Stdlib Require Import String Ascii List ZArith Bool Lia.
Import ListNotations.
Open Scope string_scope.

Set Implicit Arguments.

(** ** Raised values *)

(** Modelled from the spec: the classes [HTTPError] and [MaintenanceError]
    are imported from [errors.js], whose declarations are not embedded here.
    The source builds three kinds of raised value, [new Error(message)],
    [new HTTPError(message, status)] and [new MaintenanceError(message)];
    the description calls them three distinct, non-overlapping error kinds,
    so each is a constructor of its own. *)
Inductive exn : Type :=
| Error (message : string)
| HTTPError (message : string) (status : Z)
| MaintenanceError (message : string).

Inductive ErrorClass : Type :=
| PlainErrorClass
| HTTPErrorClass
| MaintenanceErrorClass.

Definition class_of (e : exn) : ErrorClass :=
  match e with
  | Error _ => PlainErrorClass
  | HTTPError _ _ => HTTPErrorClass
  | MaintenanceError _ => MaintenanceErrorClass
  end.

Definition message_of (e : exn) : string :=
  match e with
  | Error s => s
  | HTTPError s _ => s
  | MaintenanceError s => s
  end.

(** Modelled from the spec: the status a raised value carries.  For
    [HTTPError] it is the second argument of the constructor, as the call in
    [modeBits] passes it.  [MaintenanceError] takes no status argument; its
    status is fixed inside [errors.js], and the description gives it as the
    service-unavailable class, 503.  A plain [Error] carries none. *)
Definition status_of (e : exn) : option Z :=
  match e with
  | Error _ => None
  | HTTPError _ st => Some st
  | MaintenanceError _ => Some 503%Z
  end.

(** ** Computations: state passing with exceptions *)

Definition Comp (W A : Type) : Type := W -> W * (exn + A).

Definition ret {W A : Type} (a : A) : Comp W A :=
  fun w => (w, inr a).

Definition throw {W A : Type} (e : exn) : Comp W A :=
  fun w => (w, inl e).

Definition bind {W A B : Type} (c : Comp W A) (k : A -> Comp W B) : Comp W B :=
  fun w =>
    match c w with
    | (w', inr a) => k a w'
    | (w', inl e) => (w', inl e)
    end.

Declare Scope comp_scope.
Delimit Scope comp_scope with comp.
Notation "x <- c ;; k" := (bind c (fun x => k))
  (at level 61, c at next level, right associativity) : comp_scope.
Open Scope comp_scope.

(** ** Strings and arrays as the source uses them *)

(** [m.split('')]: the characters of [m], each a string of length one. *)
Fixpoint split_chars (m : string) : list string :=
  match m with
  | EmptyString => []
  | String c rest => String c EmptyString :: split_chars rest
  end.

(** [Array.prototype.includes] on an array of strings. *)
Definition includes (xs : list string) (x : string) : bool :=
  existsb (String.eqb x) xs.

(** [Array.prototype.every] with the callback receiving the element and its
    index.  The callbacks here are pure, so stopping at the first [false],
    as JavaScript does, and the conjunction give the same value. *)
Fixpoint every_from {A : Type} (f : A -> nat -> bool) (i : nat) (xs : list A) : bool :=
  match xs with
  | [] => true
  | x :: rest => f x i && every_from f (S i) rest
  end.

Definition every {A : Type} (f : A -> nat -> bool) (xs : list A) : bool :=
  every_from f 0 xs.

(** An array of strings interpolated in a template literal: its elements
    joined by commas. *)
Definition array_toString (xs : list string) : string :=
  String.concat "," xs.

(** The double quote character, code 34. *)
Definition dquote : string := String (ascii_of_nat 34) EmptyString.

(** ** The module's constants *)

Definition READ_WRITE : string := "rw".
Definition READ_ONLY : string := "r-".
Definition NO_READ_OR_WRITE : string := "--".

Definition modes : list string := [NO_READ_OR_WRITE; READ_ONLY; READ_WRITE].

Definition DEFAULT_MODE : string := READ_WRITE.

(** ** The gate *)

Section Gate.

(** The router's request, the execution context, the response and the
    bindings of the environment other than [MODE] are opaque to the gate. *)
Variables Request Ctx Response Bindings : Type.

Record Env : Type := mkEnv {
  MODE : string;
  bindings : Bindings
}.

Definition Handler (W : Type) : Type :=
  Request -> Env -> Ctx -> Comp W Response.

Variable W : Type.

(** [modeBits(m)] *)
Definition modeBits (m : string) : Comp W (list string) :=
  if negb (includes modes m) then
    throw (HTTPError
             ("invalid maintenance mode, wanted one of "
                ++ array_toString modes ++ " but got "
                ++ dquote ++ m ++ dquote)
             503)
  else ret (split_chars m).

(** [maintenanceHandler()] *)
Definition maintenanceHandler {A : Type} : Comp W A :=
  let url := "https://status.web3.storage" in
  throw (MaintenanceError
           ("API undergoing maintenance, check " ++ url ++ " for more info")).

(** The callback of [every] in [enabled]: [currentModeBits[i] === bit],
    where an index past the end of the array reads [undefined], which is
    equal to no string. *)
Definition bit_enabled (currentModeBits : list string) (bit : string) (i : nat) : bool :=
  if String.eqb bit "-" then true
  else match nth_error currentModeBits i with
       | Some b => String.eqb b bit
       | None => false
       end.

(** The inner function [enabled] of the returned handler; [mode] and [env]
    are the variables it closes over. *)
Definition enabled (mode : string) (env : Env) : Comp W bool :=
  let currentMode := MODE env in
  currentModeBits <- modeBits currentMode ;;
  bits <- modeBits mode ;;
  ret (every (bit_enabled currentModeBits) bits).

(** [withMode(handler, mode)] *)
Definition withMode (handler : Handler W) (mode : string) : Comp W (Handler W) :=
  if String.eqb mode NO_READ_OR_WRITE then throw (Error "invalid mode")
  else
    ret (fun request env ctx =>
           ok <- enabled mode env ;;
           if ok then handler request env ctx
           else maintenanceHandler).

End Gate.

Arguments mkEnv {Bindings} MODE bindings.
Arguments MODE {Bindings} e.
Arguments bindings {Bindings} e.

(** ** Observing the gate

    The description checks its properties with a spy: a handler that records
    every call it receives.  [spy handler] runs [handler] on the world and
    appends the arguments it was called with to a log kept beside the
    world. *)

(** The three outcomes of one request. *)
Inductive Outcome : Type :=
| Allowed
| MaintenanceBlock
| ConfigError.

Section Observation.

Variables Request Ctx Response Bindings : Type.

Definition Call : Type := (Request * Env Bindings * Ctx)%type.

Definition spy {W : Type} (handler : Handler Request Ctx Response Bindings W)
  : Handler Request Ctx Response Bindings (list Call * W) :=
  fun request env ctx st =>
    let (w', result) := handler request env ctx (snd st) in
    ((fst st ++ [(request, env, ctx)])%list, w', result).

(** [withMode] returns [wrapped] and changes nothing. *)
Definition wraps {W : Type} (handler : Handler Request Ctx Response Bindings W)
  (mode : string) (wrapped : Handler Request Ctx Response Bindings W) : Prop :=
  forall w0 : W, withMode handler mode w0 = (w0, inr wrapped).

(** What a caller holding a spy sees of one request: the spy's log grew,
    or it did not and the raised value is a [MaintenanceError], or it did
    not and the raised value is an [HTTPError]. *)
Definition classify {W : Type} (log : list Call)
  (after : (list Call * W) * (exn + Response)) : option Outcome :=
  if Nat.ltb (length log) (length (fst (fst after))) then Some Allowed
  else match snd after with
       | inl (MaintenanceError _) => Some MaintenanceBlock
       | inl (HTTPError _ _) => Some ConfigError
       | _ => None
       end.

(** Wrap a spy, send one request, classify what happened. *)
Definition observe {W : Type} (handler : Handler Request Ctx Response Bindings W)
  (mode : string) (request : Request) (env : Env Bindings) (ctx : Ctx)
  (st : list Call * W) : option Outcome :=
  match withMode (spy handler) mode st with
  | (st', inr wrapped) => classify (fst st') (wrapped request env ctx st')
  | (_, inl _) => None
  end.

End Observation.

(** A handler to run the gate on: requests and responses are numbers, the
    world is a counter of the calls received, and the handler answers with
    the request it was given. *)
Definition echo : Handler nat unit nat unit nat :=
  fun request env ctx calls => (S calls, inr request).

Definition env_with (m : string) : Env unit := mkEnv m tt.

(** Wrap [echo] under the requirement [mode] and send request 7 in an
    environment whose [MODE] is [m], from an empty log and a counter at 0. *)
Definition run_echo (mode m : string)
  : (list (Call nat unit unit) * nat) * (exn + nat) :=
  match withMode (spy echo) mode ([], 0) with
  | (st, inr wrapped) => wrapped 7 (env_with m) tt st
  | (st, inl e) => (st, inl e)
  end.

(** ** The decision as the description words it *)

(** The read bit and the write bit of a mode: its first and second
    character. *)
Definition read_bit (m : string) : option ascii := String.get 0 m.
Definition write_bit (m : string) : option ascii := String.get 1 m.

(** The description's rule: the request is permitted iff (the requirement's
    read bit is [-] or the runtime mode's read bit is [r]) and (the
    requirement's write bit is [-] or the runtime mode's write bit is
    [w]). *)
Definition permits_spec (req m : string) : Prop :=
  (read_bit req = Some "-"%char \/ read_bit m = Some "r"%char) /\
  (write_bit req = Some "-"%char \/ write_bit m = Some "w"%char).

(** The outcome of a request as a function of the requirement and the
    runtime mode alone: both are validated, the runtime mode first, and then
    the bits are compared. *)
Definition gate_outcome (req m : string) : Outcome :=
  if negb (includes modes m) then ConfigError
  else if negb (includes modes req) then ConfigError
  else if every (bit_enabled (split_chars m)) (split_chars req) then Allowed
  else MaintenanceBlock.

(** The message of the invalid-configuration error for the value [m]. *)
Definition invalid_mode_message (m : string) : string :=
  "invalid maintenance mode, wanted one of --,r-,rw but got "
    ++ dquote ++ m ++ dquote.

(** The fixed message of the maintenance block. *)
Definition maintenance_message : string :=
  "API undergoing maintenance, check https://status.web3.storage for more info".

(** ** Comparing modes with one another *)

(** The test of [enabled] on the bits of two strings: [m] satisfies [req]
    when every bit of [req] is [-] or is the bit of [m] at the same place. *)
Definition satisfies (req m : string) : bool :=
  every (bit_enabled (split_chars m)) (split_chars req).

(** The stricter of two requirements: [rw] as soon as one of them is. *)
Definition stricter (req1 req2 : string) : string :=
  if String.eqb req1 READ_WRITE then READ_WRITE else req2.

(** * Properties *)

(** ** The gate run on [echo] *)

Example modeBits_read_write :
  modeBits READ_WRITE 0 = (0, inr ["r"; "w"]).
Proof. reflexivity. Qed.

Example modes_interpolated : array_toString modes = "--,r-,rw".
Proof. reflexivity. Qed.

Example run_read_only_under_read_write :
  run_echo READ_ONLY READ_WRITE = ([(7, env_with READ_WRITE, tt)], 1, inr 7).
Proof. reflexivity. Qed.

Example run_read_write_under_read_only :
  run_echo READ_WRITE READ_ONLY = ([], 0, inl (MaintenanceError maintenance_message)).
Proof. reflexivity. Qed.

Example run_read_only_under_unknown :
  run_echo READ_ONLY "xx" = ([], 0, inl (HTTPError (invalid_mode_message "xx") 503)).
Proof. reflexivity. Qed.

Example run_unknown_under_read_write :
  run_echo "xx" READ_WRITE = ([], 0, inl (HTTPError (invalid_mode_message "xx") 503)).
Proof. reflexivity. Qed.

Example run_blocked_requirement :
  run_echo NO_READ_OR_WRITE READ_WRITE = ([], 0, inl (Error "invalid mode")).
Proof. reflexivity. Qed.

(** ** Membership in [modes] *)

Lemma includes_In (xs : list string) (x : string) :
  includes xs x = true <-> In x xs.
Proof.
  unfold includes. rewrite existsb_exists. split.
  - intros [y [Hin Heq]]. apply String.eqb_eq in Heq. now subst.
  - intros Hin. exists x. split; [assumption | apply String.eqb_refl].
Qed.

Lemma includes_not_In (xs : list string) (x : string) :
  includes xs x = false <-> ~ In x xs.
Proof.
  rewrite <- includes_In. destruct (includes xs x); split; intros H;
    try discriminate; try reflexivity; try (intros H'; discriminate).
  exfalso. now apply H.
Qed.

Lemma requirement_is_mode (req : string) :
  In req [READ_ONLY; READ_WRITE] -> In req modes.
Proof. intros H. right. exact H. Qed.

Lemma requirement_not_blocked (req : string) :
  In req [READ_ONLY; READ_WRITE] -> req <> NO_READ_OR_WRITE.
Proof. intros [<- | [<- | []]]; discriminate. Qed.

Lemma not_mode_not_blocked (m : string) :
  ~ In m modes -> m <> NO_READ_OR_WRITE.
Proof. intros H ->. apply H. now left. Qed.

(** ** The steps of the gate, one equation each *)

Lemma invalid_mode_message_eq (m : string) :
  ("invalid maintenance mode, wanted one of "
     ++ array_toString modes ++ " but got " ++ dquote ++ m ++ dquote)
  = invalid_mode_message m.
Proof. reflexivity. Qed.

Lemma modeBits_valid (W : Type) (m : string) (w : W) :
  In m modes -> modeBits m w = (w, inr (split_chars m)).
Proof.
  intros H. apply includes_In in H. unfold modeBits. now rewrite H.
Qed.

Lemma modeBits_invalid (W : Type) (m : string) (w : W) :
  ~ In m modes ->
  modeBits m w = (w, inl (HTTPError (invalid_mode_message m) 503)).
Proof.
  intros H. apply includes_not_In in H. unfold modeBits. now rewrite H.
Qed.

Lemma maintenanceHandler_eq (W A : Type) (w : W) :
  maintenanceHandler (A:=A) w = (w, inl (MaintenanceError maintenance_message)).
Proof. reflexivity. Qed.

(** The comparison of the bits agrees with the rule of the description on
    the modes a requirement and a runtime mode can be. *)
Lemma every_bit_permits (req m : string) :
  In req [READ_ONLY; READ_WRITE] -> In m modes ->
  every (bit_enabled (split_chars m)) (split_chars req) = true
  <-> permits_spec req m.
Proof.
  intros [<- | [<- | []]] [<- | [<- | [<- | []]]];
    unfold permits_spec, read_bit, write_bit; cbn;
    split; intros H;
    solve [ reflexivity | discriminate
          | repeat split; (now left) || (now right)
          | destruct H as [[H | H] [H' | H']]; discriminate ].
Qed.

Section Wrapped.

Variables Request Ctx Response Bindings : Type.

Local Abbreviation Handler := (Handler Request Ctx Response Bindings).
Local Abbreviation Call := (Call Request Ctx Bindings).

Lemma enabled_bad_runtime (W : Type) (mode : string) (env : Env Bindings) (w : W) :
  ~ In (MODE env) modes ->
  enabled mode env w = (w, inl (HTTPError (invalid_mode_message (MODE env)) 503)).
Proof.
  intros H. unfold enabled, bind. now rewrite (modeBits_invalid w H).
Qed.

Lemma enabled_bad_requirement (W : Type) (mode : string) (env : Env Bindings) (w : W) :
  In (MODE env) modes -> ~ In mode modes ->
  enabled mode env w = (w, inl (HTTPError (invalid_mode_message mode) 503)).
Proof.
  intros Hm H. unfold enabled, bind.
  now rewrite (modeBits_valid w Hm), (modeBits_invalid w H).
Qed.

Lemma enabled_valid (W : Type) (mode : string) (env : Env Bindings) (w : W) :
  In (MODE env) modes -> In mode modes ->
  enabled mode env w
  = (w, inr (every (bit_enabled (split_chars (MODE env))) (split_chars mode))).
Proof.
  intros Hm H. unfold enabled, bind.
  now rewrite (modeBits_valid w Hm), (modeBits_valid w H).
Qed.

(** [withMode] with a requirement other than [--] returns the closure and
    leaves the world as it was. *)
Lemma withMode_wraps (W : Type) (handler : Handler W) (mode : string) :
  mode <> NO_READ_OR_WRITE ->
  exists wrapped : Handler W,
    wraps handler mode wrapped /\
    forall request env ctx w,
      wrapped request env ctx w
      = match enabled mode env w with
        | (w', inr true) => handler request env ctx w'
        | (w', inr false) => maintenanceHandler w'
        | (w', inl e) => (w', inl e)
        end.
Proof.
  intros Hmode. apply String.eqb_neq in Hmode.
  eexists. split.
  - intros w0. unfold withMode. rewrite Hmode. reflexivity.
  - intros request env ctx w. unfold bind.
    destruct (enabled mode env w) as [w' [e | [|]]]; reflexivity.
Qed.

Lemma permits_spec_dec (req m : string) :
  {permits_spec req m} + {~ permits_spec req m}.
Proof.
  assert (Hdec : forall (a b : option ascii), {a = b} + {a <> b})
    by (intros a b; decide equality; apply ascii_dec).
  unfold permits_spec.
  destruct (Hdec (read_bit req) (Some "-"%char)), (Hdec (read_bit m) (Some "r"%char)),
    (Hdec (write_bit req) (Some "-"%char)), (Hdec (write_bit m) (Some "w"%char));
    solve [ left; split; (now left) || (now right)
          | right; intros [[?|?] [?|?]]; contradiction ].
Qed.

(** The four ways a request through the wrapped handler can go. *)
Lemma withMode_call (W : Type) (handler : Handler W) (mode : string) :
  mode <> NO_READ_OR_WRITE ->
  exists wrapped : Handler W,
    wraps handler mode wrapped /\
    forall request env ctx w,
      (~ In (MODE env) modes ->
       wrapped request env ctx w
       = (w, inl (HTTPError (invalid_mode_message (MODE env)) 503))) /\
      (In (MODE env) modes -> ~ In mode modes ->
       wrapped request env ctx w
       = (w, inl (HTTPError (invalid_mode_message mode) 503))) /\
      (In (MODE env) modes -> In mode [READ_ONLY; READ_WRITE] ->
       permits_spec mode (MODE env) ->
       wrapped request env ctx w = handler request env ctx w) /\
      (In (MODE env) modes -> In mode [READ_ONLY; READ_WRITE] ->
       ~ permits_spec mode (MODE env) ->
       wrapped request env ctx w
       = (w, inl (MaintenanceError maintenance_message))).
Proof.
  intros Hmode.
  destruct (withMode_wraps handler Hmode) as [wrapped [Hwraps Hcall]].
  exists wrapped. split; [exact Hwraps |].
  intros request env ctx w. rewrite Hcall. repeat split.
  - intros Hbad. now rewrite (enabled_bad_runtime mode env w Hbad).
  - intros Hm Hbad. now rewrite (enabled_bad_requirement env w Hm Hbad).
  - intros Hm Hreq Hp.
    rewrite (enabled_valid env w Hm (requirement_is_mode Hreq)).
    apply (every_bit_permits Hreq Hm) in Hp. now rewrite Hp.
  - intros Hm Hreq Hp.
    rewrite (enabled_valid env w Hm (requirement_is_mode Hreq)).
    destruct (every _ _) eqn:E; [| reflexivity].
    apply (every_bit_permits Hreq Hm) in E. contradiction.
Qed.

Lemma spy_call (W : Type) (handler : Handler W) request env ctx (log : list Call) (w : W) :
  spy handler request env ctx (log, w)
  = ((log ++ [(request, env, ctx)])%list, fst (handler request env ctx w),
     snd (handler request env ctx w)).
Proof.
  unfold spy. cbn. now destruct (handler request env ctx w).
Qed.

Lemma log_grows_neq (log : list Call) (c : Call) : (log ++ [c])%list <> log.
Proof.
  intros H. apply (f_equal (@length _)) in H.
  rewrite length_app in H. cbn in H. lia.
Qed.

Lemma classify_grown (W : Type) (log : list Call) (c : Call) (w : W)
    (result : exn + Response) :
  classify log ((log ++ [c])%list, w, result) = Some Allowed.
Proof.
  unfold classify. cbn [fst snd].
  assert (H : (length log <? length (log ++ [c]))%nat = true)
    by (apply Nat.ltb_lt; rewrite length_app; cbn; lia).
  now rewrite H.
Qed.

Lemma classify_same (W : Type) (log : list Call) (w : W) (e : exn) :
  classify (Response:=Response) log (log, w, inl e)
  = match e with
    | MaintenanceError _ => Some MaintenanceBlock
    | HTTPError _ _ => Some ConfigError
    | Error _ => None
    end.
Proof.
  unfold classify. cbn [fst snd]. now rewrite Nat.ltb_irrefl.
Qed.

(** One request through a wrapped spy, classified: the outcome is
    [gate_outcome] of the requirement and of the [MODE] of the environment
    passed with the request. *)
Lemma wrapped_spy_outcome (W : Type) (handler : Handler W) (mode : string) :
  mode <> NO_READ_OR_WRITE ->
  exists wrapped,
    wraps (spy handler) mode wrapped /\
    forall request env ctx st,
      classify (fst st) (wrapped request env ctx st)
      = Some (gate_outcome mode (MODE env)).
Proof.
  intros Hmode.
  destruct (withMode_wraps (spy handler) Hmode) as [wrapped [Hwraps Hcall]].
  exists wrapped. split; [exact Hwraps |].
  intros request env ctx [log w]. rewrite Hcall. unfold gate_outcome. cbn [fst].
  destruct (includes modes (MODE env)) eqn:Em; cbn [negb].
  - apply includes_In in Em.
    destruct (includes modes mode) eqn:Er; cbn [negb].
    + apply includes_In in Er. rewrite (enabled_valid env _ Em Er).
      destruct (every _ _).
      * rewrite spy_call. apply classify_grown.
      * rewrite maintenanceHandler_eq. apply classify_same.
    + apply includes_not_In in Er.
      rewrite (enabled_bad_requirement env _ Em Er). apply classify_same.
  - apply includes_not_In in Em.
    rewrite (enabled_bad_runtime mode env _ Em). apply classify_same.
Qed.

Lemma observe_outcome (W : Type) (handler : Handler W) (mode : string)
    request env ctx (st : list Call * W) :
  mode <> NO_READ_OR_WRITE ->
  observe handler mode request env ctx st = Some (gate_outcome mode (MODE env)).
Proof.
  intros Hmode.
  destruct (wrapped_spy_outcome handler Hmode) as [wrapped [Hwraps Hout]].
  unfold observe. rewrite (Hwraps st). apply Hout.
Qed.

Lemma observe_blocked_requirement (W : Type) (handler : Handler W)
    request env ctx (st : list Call * W) :
  observe handler NO_READ_OR_WRITE request env ctx st = None.
Proof. reflexivity. Qed.

(** ** The claims *)

(** C1. For a requirement [req] among [r-] and [rw] and a runtime mode among
    [--], [r-] and [rw], the handler returned by [withMode] invokes the
    wrapped handler if and only if (the read bit of [req] is [-] or the read
    bit of the runtime mode is [r]) and (the write bit of [req] is [-] or the
    write bit of the runtime mode is [w]); otherwise it raises the
    maintenance error.  In particular ([r-], [--]) is blocked, ([r-], [r-])
    and ([r-], [rw]) are allowed, ([rw], [--]) and ([rw], [r-]) are blocked
    and ([rw], [rw]) is allowed. *)
Theorem withMode_permits_iff (W : Type) (handler : Handler W) (req : string)
    (request : Request) (env : Env Bindings) (ctx : Ctx)
    (log : list Call) (w : W) :
  In req [READ_ONLY; READ_WRITE] -> In (MODE env) modes ->
  exists wrapped,
    wraps (spy handler) req wrapped /\
    (fst (fst (wrapped request env ctx (log, w)))
     = (log ++ [(request, env, ctx)])%list
     <-> permits_spec req (MODE env)) /\
    (wrapped request env ctx (log, w)
     = (log, w, inl (MaintenanceError maintenance_message))
     <-> ~ permits_spec req (MODE env)) /\
    (forall b : Bindings,
       let gate r m := observe handler r request (mkEnv m b) ctx (log, w) in
       gate READ_ONLY NO_READ_OR_WRITE = Some MaintenanceBlock /\
       gate READ_ONLY READ_ONLY = Some Allowed /\
       gate READ_ONLY READ_WRITE = Some Allowed /\
       gate READ_WRITE NO_READ_OR_WRITE = Some MaintenanceBlock /\
       gate READ_WRITE READ_ONLY = Some MaintenanceBlock /\
       gate READ_WRITE READ_WRITE = Some Allowed).
Proof.
  intros Hreq Hm.
  destruct (withMode_call (spy handler) (requirement_not_blocked Hreq))
    as [wrapped [Hwraps Hcall]].
  destruct (Hcall request env ctx (log, w)) as [_ [_ [Hallow Hblock]]].
  specialize (Hallow Hm Hreq). specialize (Hblock Hm Hreq).
  exists wrapped. split; [exact Hwraps |].
  split; [split | split; [split |]].
  - intros Hlog. destruct (permits_spec_dec req (MODE env)) as [Hp | Hp];
      [exact Hp |].
    rewrite (Hblock Hp) in Hlog. cbn in Hlog. symmetry in Hlog.
    now apply log_grows_neq in Hlog.
  - intros Hp. rewrite (Hallow Hp), spy_call. reflexivity.
  - intros Hres Hp. rewrite (Hallow Hp), spy_call in Hres.
    apply (f_equal (fun r => fst (fst r))) in Hres. cbn in Hres.
    now apply log_grows_neq in Hres.
  - exact Hblock.
  - intros b gate. subst gate. cbv beta.
    rewrite !observe_outcome by discriminate. repeat split.
Qed.

(** C2. For every handler, [withMode(handler, '--')] raises the construction
    error [Error('invalid mode')] at wrap time: the world is as it was, a
    spy handler has recorded no call, and no wrapped handler is returned. *)
Theorem withMode_rejects_blocked_requirement (W : Type) (handler : Handler W)
    (log : list Call) (w : W) :
  withMode handler NO_READ_OR_WRITE w = (w, inl (Error "invalid mode")) /\
  withMode (spy handler) NO_READ_OR_WRITE (log, w)
  = (log, w, inl (Error "invalid mode")) /\
  (forall w' wrapped, withMode handler NO_READ_OR_WRITE w <> (w', inr wrapped)).
Proof.
  split; [reflexivity | split; [reflexivity |]].
  intros w' wrapped H. discriminate H.
Qed.

(** C3. For a requirement among [r-] and [rw] and a runtime mode that is none
    of [--], [r-] and [rw], a request through the wrapped handler raises
    [HTTPError] with status 503 and the message
    [invalid maintenance mode, wanted one of --,r-,rw but got "m"] for the
    runtime mode [m].  The wrapped handler is not invoked: the world and the
    spy's log are as they were.  The raised value is the one [modeBits]
    raises for the runtime mode, the first step of [enabled], and it is the
    same whatever the requirement: no bit has been compared. *)
Theorem invalid_runtime_mode_is_config_error (W : Type) (handler : Handler W)
    (req : string) (request : Request) (env : Env Bindings) (ctx : Ctx)
    (log : list Call) (w : W) :
  In req [READ_ONLY; READ_WRITE] -> ~ In (MODE env) modes ->
  exists wrapped,
    wraps (spy handler) req wrapped /\
    wrapped request env ctx (log, w)
    = (log, w,
       inl (HTTPError
              ("invalid maintenance mode, wanted one of --,r-,rw but got "
                 ++ dquote ++ MODE env ++ dquote) 503)) /\
    (exists e, modeBits (MODE env) (log, w) = (log, w, inl e) /\
               wrapped request env ctx (log, w) = (log, w, inl e)) /\
    (forall req', req' <> NO_READ_OR_WRITE ->
       exists wrapped',
         wraps (spy handler) req' wrapped' /\
         wrapped' request env ctx (log, w) = wrapped request env ctx (log, w)).
Proof.
  intros Hreq Hbad.
  destruct (withMode_call (spy handler) (requirement_not_blocked Hreq))
    as [wrapped [Hwraps Hcall]].
  destruct (Hcall request env ctx (log, w)) as [Hconfig _].
  specialize (Hconfig Hbad).
  exists wrapped. split; [exact Hwraps |]. split; [exact Hconfig |]. split.
  - eexists. split; [apply (modeBits_invalid _ Hbad) | exact Hconfig].
  - intros req' Hreq'.
    destruct (withMode_call (spy handler) Hreq') as [wrapped' [Hwraps' Hcall']].
    destruct (Hcall' request env ctx (log, w)) as [Hconfig' _].
    exists wrapped'. split; [exact Hwraps' |].
    now rewrite Hconfig, (Hconfig' Hbad).
Qed.

(** C4. For a requirement among [r-] and [rw] that the runtime mode, one of
    [--], [r-] and [rw], does not satisfy, the wrapped handler is never
    invoked (the world and the spy's log are as they were) and
    [MaintenanceError] is raised with exactly the message
    [API undergoing maintenance, check https://status.web3.storage for more
    info], which contains the address of the status page; its status is
    503. *)
Theorem unsatisfied_requirement_is_maintenance (W : Type) (handler : Handler W)
    (req : string) (request : Request) (env : Env Bindings) (ctx : Ctx)
    (log : list Call) (w : W) :
  In req [READ_ONLY; READ_WRITE] -> In (MODE env) modes ->
  ~ permits_spec req (MODE env) ->
  exists wrapped e,
    wraps (spy handler) req wrapped /\
    wrapped request env ctx (log, w) = (log, w, inl e) /\
    e = MaintenanceError
          "API undergoing maintenance, check https://status.web3.storage for more info" /\
    (exists before after,
       message_of e = before ++ "https://status.web3.storage" ++ after) /\
    status_of e = Some 503%Z.
Proof.
  intros Hreq Hm Hp.
  destruct (withMode_call (spy handler) (requirement_not_blocked Hreq))
    as [wrapped [Hwraps Hcall]].
  destruct (Hcall request env ctx (log, w)) as [_ [_ [_ Hblock]]].
  exists wrapped, (MaintenanceError maintenance_message).
  split; [exact Hwraps |]. split; [exact (Hblock Hm Hreq Hp) |].
  split; [reflexivity |]. split; [| reflexivity].
  exists "API undergoing maintenance, check ", " for more info". reflexivity.
Qed.

(** C5. For a permitted request, the wrapped handler is invoked exactly once
    with the original [request], [env] and [ctx], and what it returns or
    raises, and the world it leaves, are returned as they are: the call
    through the gate equals the call of the handler, and a spy records
    exactly that one call. *)
Theorem permitted_request_passes_through (W : Type) (handler : Handler W)
    (req : string) (request : Request) (env : Env Bindings) (ctx : Ctx)
    (log : list Call) (w : W) :
  In req [READ_ONLY; READ_WRITE] -> In (MODE env) modes ->
  permits_spec req (MODE env) ->
  (exists wrapped,
     wraps handler req wrapped /\
     wrapped request env ctx w = handler request env ctx w) /\
  (exists wrapped,
     wraps (spy handler) req wrapped /\
     wrapped request env ctx (log, w)
     = ((log ++ [(request, env, ctx)])%list,
        fst (handler request env ctx w),
        snd (handler request env ctx w))).
Proof.
  intros Hreq Hm Hp. split.
  - destruct (withMode_call handler (requirement_not_blocked Hreq))
      as [wrapped [Hwraps Hcall]].
    destruct (Hcall request env ctx w) as [_ [_ [Hallow _]]].
    exists wrapped. split; [exact Hwraps | exact (Hallow Hm Hreq Hp)].
  - destruct (withMode_call (spy handler) (requirement_not_blocked Hreq))
      as [wrapped [Hwraps Hcall]].
    destruct (Hcall request env ctx (log, w)) as [_ [_ [Hallow _]]].
    exists wrapped. split; [exact Hwraps |].
    rewrite (Hallow Hm Hreq Hp). apply spy_call.
Qed.

(** C6. The three failures are raised values of three different classes: the
    construction error of [withMode] is a plain [Error], the error for an
    invalid runtime mode is an [HTTPError], and the block of a request whose
    requirement is not satisfied is a [MaintenanceError], which is not of the
    class of the configuration error.  None is caught: each is the result the
    caller receives. *)
Theorem failures_are_distinct_kinds (W : Type) (handler : Handler W)
    (req : string) (request : Request) (env_bad env_low : Env Bindings)
    (ctx : Ctx) (w : W) :
  In req [READ_ONLY; READ_WRITE] ->
  ~ In (MODE env_bad) modes ->
  In (MODE env_low) modes -> ~ permits_spec req (MODE env_low) ->
  exists wrapped e_wrap e_config e_block,
    withMode handler NO_READ_OR_WRITE w = (w, inl e_wrap) /\
    wraps handler req wrapped /\
    wrapped request env_bad ctx w = (w, inl e_config) /\
    wrapped request env_low ctx w = (w, inl e_block) /\
    class_of e_wrap = PlainErrorClass /\
    class_of e_config = HTTPErrorClass /\
    class_of e_block = MaintenanceErrorClass /\
    class_of e_wrap <> class_of e_config /\
    class_of e_config <> class_of e_block /\
    class_of e_wrap <> class_of e_block.
Proof.
  intros Hreq Hbad Hm Hp.
  destruct (withMode_call handler (requirement_not_blocked Hreq))
    as [wrapped [Hwraps Hcall]].
  destruct (Hcall request env_bad ctx w) as [Hconfig _].
  destruct (Hcall request env_low ctx w) as [_ [_ [_ Hblock]]].
  exists wrapped, (Error "invalid mode"),
    (HTTPError (invalid_mode_message (MODE env_bad)) 503),
    (MaintenanceError maintenance_message).
  split; [reflexivity |]. split; [exact Hwraps |].
  split; [exact (Hconfig Hbad) |]. split; [exact (Hblock Hm Hreq Hp) |].
  cbn. repeat split; discriminate.
Qed.

(** C7. The decision for a request is a function of the requirement and the
    runtime mode alone.  Two evaluations with the same requirement and the
    same runtime mode have the same outcome, one of allowed, maintenance
    block and configuration error, whatever the handlers, their worlds, the
    requests and the contexts are; and a second request through the same
    wrapped handler, made in the state the first one left, has the outcome
    of the first: nothing is carried from one call to the next. *)
Theorem gate_is_deterministic (W1 W2 : Type)
    (handler1 : Handler W1) (handler2 : Handler W2) (req : string)
    (request1 request2 : Request) (env1 env2 : Env Bindings) (ctx1 ctx2 : Ctx)
    (st1 : list Call * W1) (st2 : list Call * W2) :
  req <> NO_READ_OR_WRITE -> MODE env1 = MODE env2 ->
  (exists o,
     observe handler1 req request1 env1 ctx1 st1 = Some o /\
     observe handler2 req request2 env2 ctx2 st2 = Some o) /\
  (exists wrapped o,
     wraps (spy handler1) req wrapped /\
     let first := wrapped request1 env1 ctx1 st1 in
     let second := wrapped request2 env2 ctx2 (fst first) in
     classify (fst st1) first = Some o /\
     classify (fst (fst first)) second = Some o).
Proof.
  intros Hreq Hmode. split.
  - exists (gate_outcome req (MODE env1)). split.
    + now apply observe_outcome.
    + rewrite Hmode. now apply observe_outcome.
  - destruct (wrapped_spy_outcome handler1 Hreq) as [wrapped [Hwraps Hout]].
    exists wrapped, (gate_outcome req (MODE env1)).
    split; [exact Hwraps |]. cbv zeta. split.
    + apply Hout.
    + rewrite Hmode. apply Hout.
Qed.

(** C8. The runtime mode is the [MODE] field of the environment passed with
    each request; nothing of it is fixed when the handler is wrapped.  For a
    handler wrapped once and two requests in a row, with environments that
    may differ, the outcome of each request is a function of the [MODE] of
    its own environment.  For a requirement among [r-] and [rw] that function
    allows under [rw], blocks under [--] and gives the configuration error on
    a value that is no mode. *)
Theorem runtime_mode_read_per_request (req : string) :
  req <> NO_READ_OR_WRITE ->
  exists f : string -> Outcome,
    (forall (W : Type) (handler : Handler W),
       exists wrapped,
         wraps (spy handler) req wrapped /\
         forall request1 env1 ctx1 request2 env2 ctx2 st,
           let first := wrapped request1 env1 ctx1 st in
           let second := wrapped request2 env2 ctx2 (fst first) in
           classify (fst st) first = Some (f (MODE env1)) /\
           classify (fst (fst first)) second = Some (f (MODE env2))) /\
    (In req [READ_ONLY; READ_WRITE] ->
     f READ_WRITE = Allowed /\
     f NO_READ_OR_WRITE = MaintenanceBlock /\
     forall m, ~ In m modes -> f m = ConfigError).
Proof.
  intros Hreq. exists (gate_outcome req). split.
  - intros W handler.
    destruct (wrapped_spy_outcome handler Hreq) as [wrapped [Hwraps Hout]].
    exists wrapped. split; [exact Hwraps |].
    intros request1 env1 ctx1 request2 env2 ctx2 st. cbv zeta.
    split; apply Hout.
  - intros [<- | [<- | []]]; (split; [reflexivity | split; [reflexivity |]]);
      intros m Hm; apply includes_not_In in Hm;
      unfold gate_outcome; now rewrite Hm.
Qed.

(** C9. For every handler and every mode other than [--], [withMode] returns
    without raising and changes nothing: the world is as it was and a spy
    handler has recorded no call.  It is given no environment to read.  What
    it returns is a handler again, taking [request], [env] and [ctx]. *)
Theorem withMode_constructs_without_effects (W : Type) (handler : Handler W)
    (mode : string) (log : list Call) (w : W) :
  mode <> NO_READ_OR_WRITE ->
  (exists wrapped : Handler W, withMode handler mode w = (w, inr wrapped)) /\
  (exists wrapped : Handler (list Call * W),
     withMode (spy handler) mode (log, w) = (log, w, inr wrapped)).
Proof.
  intros Hmode. split.
  - destruct (withMode_wraps handler Hmode) as [wrapped [Hwraps _]].
    exists wrapped. apply Hwraps.
  - destruct (withMode_wraps (spy handler) Hmode) as [wrapped [Hwraps _]].
    exists wrapped. apply Hwraps.
Qed.

(** C10. [withMode] checks at wrap time only that the requirement is not
    [--].  For a requirement that is none of [--], [r-] and [rw] it returns a
    wrapped handler, and every request through it under a runtime mode among
    [--], [r-] and [rw] raises [HTTPError] with status 503 and a message
    naming the requirement; the wrapped handler is not invoked and no
    [MaintenanceError] is raised.  The runtime mode is validated first: when
    it is no mode either, the message names the runtime mode. *)
Theorem unknown_requirement_is_config_error (W : Type) (handler : Handler W)
    (req : string) (request : Request) (env : Env Bindings) (ctx : Ctx)
    (log : list Call) (w : W) :
  ~ In req modes -> In (MODE env) modes ->
  exists wrapped,
    wraps (spy handler) req wrapped /\
    wrapped request env ctx (log, w)
    = (log, w,
       inl (HTTPError
              ("invalid maintenance mode, wanted one of --,r-,rw but got "
                 ++ dquote ++ req ++ dquote) 503)) /\
    (forall st message,
       wrapped request env ctx (log, w) <> (st, inl (MaintenanceError message))) /\
    (forall env', ~ In (MODE env') modes ->
       wrapped request env' ctx (log, w)
       = (log, w,
          inl (HTTPError
                 ("invalid maintenance mode, wanted one of --,r-,rw but got "
                    ++ dquote ++ MODE env' ++ dquote) 503))).
Proof.
  intros Hreq Hm.
  destruct (withMode_call (spy handler) (not_mode_not_blocked Hreq))
    as [wrapped [Hwraps Hcall]].
  destruct (Hcall request env ctx (log, w)) as [_ [Hconfig _]].
  specialize (Hconfig Hm Hreq).
  exists wrapped. split; [exact Hwraps |]. split; [exact Hconfig |]. split.
  - intros st message H. rewrite Hconfig in H. discriminate H.
  - intros env' Hbad.
    destruct (Hcall request env' ctx (log, w)) as [Hconfig' _].
    exact (Hconfig' Hbad).
Qed.

End Wrapped.

(** ** The claims at concrete requests *)

(** Discharging the side conditions on concrete modes. *)
Ltac mode_facts :=
  first
    [ reflexivity
    | discriminate
    | solve [cbn; auto]
    | solve [cbn; intros [H | [H | [H | []]]]; discriminate H]
    | solve [split; (now left) || (now right)]
    | solve [intros [[H | H] [H' | H']]; discriminate] ].

Lemma withMode_permits_iff_witness :
  exists wrapped,
    wraps (spy echo) READ_ONLY wrapped /\
    (fst (fst (wrapped 7 (env_with READ_WRITE) tt ([], 0)))
     = [(7, env_with READ_WRITE, tt)]
     <-> permits_spec READ_ONLY READ_WRITE) /\
    (wrapped 7 (env_with READ_WRITE) tt ([], 0)
     = ([], 0, inl (MaintenanceError maintenance_message))
     <-> ~ permits_spec READ_ONLY READ_WRITE) /\
    (forall b : unit,
       let gate r m := observe echo r 7 (mkEnv m b) tt ([], 0) in
       gate READ_ONLY NO_READ_OR_WRITE = Some MaintenanceBlock /\
       gate READ_ONLY READ_ONLY = Some Allowed /\
       gate READ_ONLY READ_WRITE = Some Allowed /\
       gate READ_WRITE NO_READ_OR_WRITE = Some MaintenanceBlock /\
       gate READ_WRITE READ_ONLY = Some MaintenanceBlock /\
       gate READ_WRITE READ_WRITE = Some Allowed).
Proof.
  apply (withMode_permits_iff echo (req:=READ_ONLY) 7 (env_with READ_WRITE) tt [] 0);
    mode_facts.
Defined.

Lemma invalid_runtime_mode_is_config_error_witness :
  exists wrapped,
    wraps (spy echo) READ_ONLY wrapped /\
    wrapped 7 (env_with "xx") tt ([], 0)
    = ([], 0,
       inl (HTTPError
              ("invalid maintenance mode, wanted one of --,r-,rw but got "
                 ++ dquote ++ "xx" ++ dquote) 503)) /\
    (exists e, modeBits "xx" (@nil (Call nat unit unit), 0) = ([], 0, inl e) /\
               wrapped 7 (env_with "xx") tt ([], 0) = ([], 0, inl e)) /\
    (forall req', req' <> NO_READ_OR_WRITE ->
       exists wrapped',
         wraps (spy echo) req' wrapped' /\
         wrapped' 7 (env_with "xx") tt ([], 0)
         = wrapped 7 (env_with "xx") tt ([], 0)).
Proof.
  apply (invalid_runtime_mode_is_config_error echo (req:=READ_ONLY) 7
           (env_with "xx") tt [] 0);
    mode_facts.
Defined.

Lemma unsatisfied_requirement_is_maintenance_witness :
  exists wrapped e,
    wraps (spy echo) READ_WRITE wrapped /\
    wrapped 7 (env_with READ_ONLY) tt ([], 0) = ([], 0, inl e) /\
    e = MaintenanceError
          "API undergoing maintenance, check https://status.web3.storage for more info" /\
    (exists before after,
       message_of e = before ++ "https://status.web3.storage" ++ after) /\
    status_of e = Some 503%Z.
Proof.
  apply (unsatisfied_requirement_is_maintenance echo (req:=READ_WRITE) 7
           (env_with READ_ONLY) tt [] 0);
    mode_facts.
Defined.

Lemma permitted_request_passes_through_witness :
  (exists wrapped,
     wraps echo READ_ONLY wrapped /\
     wrapped 7 (env_with READ_WRITE) tt 0 = (1, inr 7)) /\
  (exists wrapped,
     wraps (spy echo) READ_ONLY wrapped /\
     wrapped 7 (env_with READ_WRITE) tt ([], 0)
     = ([(7, env_with READ_WRITE, tt)], 1, inr 7)).
Proof.
  apply (permitted_request_passes_through echo (req:=READ_ONLY) 7
           (env_with READ_WRITE) tt [] 0);
    mode_facts.
Defined.

Lemma failures_are_distinct_kinds_witness :
  exists wrapped e_wrap e_config e_block,
    withMode echo NO_READ_OR_WRITE 0 = (0, inl e_wrap) /\
    wraps echo READ_WRITE wrapped /\
    wrapped 7 (env_with "xx") tt 0 = (0, inl e_config) /\
    wrapped 7 (env_with READ_ONLY) tt 0 = (0, inl e_block) /\
    class_of e_wrap = PlainErrorClass /\
    class_of e_config = HTTPErrorClass /\
    class_of e_block = MaintenanceErrorClass /\
    class_of e_wrap <> class_of e_config /\
    class_of e_config <> class_of e_block /\
    class_of e_wrap <> class_of e_block.
Proof.
  apply (failures_are_distinct_kinds echo (req:=READ_WRITE) 7
           (env_with "xx") (env_with READ_ONLY) tt 0);
    mode_facts.
Defined.

Lemma gate_is_deterministic_witness :
  (exists o,
     observe echo READ_ONLY 7 (env_with READ_WRITE) tt ([], 0) = Some o /\
     observe echo READ_ONLY 8 (mkEnv READ_WRITE tt) tt ([(1, env_with "--", tt)], 5)
     = Some o) /\
  (exists wrapped o,
     wraps (spy echo) READ_ONLY wrapped /\
     let first := wrapped 7 (env_with READ_WRITE) tt ([], 0) in
     let second := wrapped 8 (mkEnv READ_WRITE tt) tt (fst first) in
     classify (fst (@nil (Call nat unit unit), 0)) first = Some o /\
     classify (fst (fst first)) second = Some o).
Proof.
  apply (gate_is_deterministic echo echo (req:=READ_ONLY) 7 8
           (env_with READ_WRITE) (mkEnv READ_WRITE tt) tt tt
           ([], 0) ([(1, env_with "--", tt)], 5));
    mode_facts.
Defined.

Lemma runtime_mode_read_per_request_witness :
  exists f : string -> Outcome,
    (forall (W : Type) (handler : Handler nat unit nat unit W),
       exists wrapped,
         wraps (spy handler) READ_ONLY wrapped /\
         forall request1 env1 ctx1 request2 env2 ctx2 st,
           let first := wrapped request1 env1 ctx1 st in
           let second := wrapped request2 env2 ctx2 (fst first) in
           classify (fst st) first = Some (f (MODE env1)) /\
           classify (fst (fst first)) second = Some (f (MODE env2))) /\
    (In READ_ONLY [READ_ONLY; READ_WRITE] ->
     f READ_WRITE = Allowed /\
     f NO_READ_OR_WRITE = MaintenanceBlock /\
     forall m, ~ In m modes -> f m = ConfigError).
Proof.
  apply (runtime_mode_read_per_request nat unit nat unit (req:=READ_ONLY));
    mode_facts.
Defined.

Lemma withMode_constructs_without_effects_witness :
  (exists wrapped : Handler nat unit nat unit nat,
     withMode echo "xx" 0 = (0, inr wrapped)) /\
  (exists wrapped : Handler nat unit nat unit (list (Call nat unit unit) * nat),
     withMode (spy echo) "xx" ([], 0) = ([], 0, inr wrapped)).
Proof.
  apply (withMode_constructs_without_effects echo (mode:="xx") [] 0);
    mode_facts.
Defined.

Lemma unknown_requirement_is_config_error_witness :
  exists wrapped,
    wraps (spy echo) "xx" wrapped /\
    wrapped 7 (env_with READ_WRITE) tt ([], 0)
    = ([], 0,
       inl (HTTPError
              ("invalid maintenance mode, wanted one of --,r-,rw but got "
                 ++ dquote ++ "xx" ++ dquote) 503)) /\
    (forall st message,
       wrapped 7 (env_with READ_WRITE) tt ([], 0)
       <> (st, inl (MaintenanceError message))) /\
    (forall env', ~ In (MODE env') modes ->
       wrapped 7 env' tt ([], 0)
       = ([], 0,
          inl (HTTPError
                 ("invalid maintenance mode, wanted one of --,r-,rw but got "
                    ++ dquote ++ MODE env' ++ dquote) 503))).
Proof.
  apply (unknown_requirement_is_config_error echo (req:="xx") 7
           (env_with READ_WRITE) tt [] 0);
    mode_facts.
Defined.

(** * Further properties of the gate *)

(** ** The array functions *)

Lemma split_chars_length (m : string) :
  length (split_chars m) = String.length m.
Proof. induction m as [| c m IH]; cbn; [reflexivity | now rewrite IH]. Qed.

Lemma split_chars_single (m : string) :
  Forall (fun bit => String.length bit = 1) (split_chars m).
Proof. induction m as [| c m IH]; cbn; constructor; [reflexivity | exact IH]. Qed.

(** Joining the characters with nothing between them gives the string
    back. *)
Lemma split_chars_join (m : string) :
  String.concat EmptyString (split_chars m) = m.
Proof.
  induction m as [| c m IH]; [reflexivity |].
  cbn [split_chars]. destruct (split_chars m) as [| b bits] eqn:E.
  - destruct m; [reflexivity | discriminate E].
  - change (String.concat EmptyString (String c EmptyString :: b :: bits))
      with (String c EmptyString ++ EmptyString
              ++ String.concat EmptyString (b :: bits)).
    rewrite IH. reflexivity.
Qed.

Lemma every_from_spec (A : Type) (f : A -> nat -> bool) (xs : list A) (i : nat) :
  every_from f i xs = true
  <-> forall k x, nth_error xs k = Some x -> f x (i + k) = true.
Proof.
  revert i. induction xs as [| y xs IH]; intros i; cbn [every_from].
  - split; [| reflexivity]. intros _ [| k] x H; discriminate H.
  - rewrite andb_true_iff, IH. split.
    + intros [Hy Hrest] [| k] x H.
      * cbn in H. injection H as <-. now rewrite Nat.add_0_r.
      * cbn in H. replace (i + S k) with (S i + k) by lia. now apply (Hrest k).
    + intros H. split.
      * rewrite <- (Nat.add_0_r i). now apply H.
      * intros k x Hk. replace (S i + k) with (i + S k) by lia. now apply (H (S k)).
Qed.

Lemma bit_enabled_spec (currentModeBits : list string) (bit : string) (i : nat) :
  bit_enabled currentModeBits bit i = true
  <-> bit = "-" \/ nth_error currentModeBits i = Some bit.
Proof.
  unfold bit_enabled. destruct (String.eqb_spec bit "-") as [-> | Hne].
  - split; [now left | reflexivity].
  - destruct (nth_error currentModeBits i) as [b |].
    + rewrite String.eqb_eq. split.
      * intros ->. now right.
      * intros [H | H]; [contradiction | now injection H].
    + split; [discriminate | intros [H | H]; [contradiction | discriminate H]].
Qed.

(** X1. The comparison of [enabled], on any two arrays of bits: it holds
    exactly when every bit of the requirement is [-] or is the bit of the
    current mode at the same index.  A bit of the requirement past the end of
    the current mode's bits must be [-], and an empty requirement is always
    met. *)
Theorem bit_comparison_spec (currentModeBits bits : list string) :
  every (bit_enabled currentModeBits) bits = true
  <-> forall k bit,
        nth_error bits k = Some bit ->
        bit = "-" \/ nth_error currentModeBits k = Some bit.
Proof.
  unfold every. rewrite every_from_spec. cbn [Nat.add].
  split; intros H k bit Hk; apply bit_enabled_spec; now apply H.
Qed.

(** X2. The comparison of [enabled] is reflexive and transitive on all
    strings: a mode satisfies itself taken as a requirement, and when [b]
    satisfies [a] and [c] satisfies [b], [c] satisfies [a]. *)
Theorem satisfies_preorder :
  (forall a, satisfies a a = true) /\
  (forall a b c,
     satisfies a b = true -> satisfies b c = true -> satisfies a c = true).
Proof.
  unfold satisfies. split.
  - intros a. apply bit_comparison_spec. intros k bit Hk. now right.
  - intros a b c Hab Hbc. rewrite bit_comparison_spec in *.
    intros k bit Hk. destruct (Hab k bit Hk) as [Hdash | Hb]; [now left |].
    exact (Hbc k bit Hb).
Qed.

(** X3. On one of the three modes [modeBits] returns, leaving the world as
    it was, exactly two bits, each a string of one character, and the bits
    joined give the mode back. *)
Theorem modeBits_returns_bits (W : Type) (m : string) (w : W) :
  In m modes ->
  exists bits,
    modeBits m w = (w, inr bits) /\
    length bits = 2 /\
    Forall (fun bit => String.length bit = 1) bits /\
    String.concat EmptyString bits = m.
Proof.
  intros Hm. exists (split_chars m).
  split; [now apply modeBits_valid |].
  split; [| split; [apply split_chars_single | apply split_chars_join]].
  rewrite split_chars_length.
  destruct Hm as [<- | [<- | [<- | []]]]; reflexivity.
Qed.

Section Composition.

Variables Request Ctx Response Bindings : Type.

Local Abbreviation Handler := (Handler Request Ctx Response Bindings).
Local Abbreviation Call := (Call Request Ctx Bindings).

(** A request through the wrapped handler, in one equation. *)
Lemma withMode_call_eq (W : Type) (handler : Handler W) (mode : string) :
  mode <> NO_READ_OR_WRITE ->
  exists wrapped : Handler W,
    wraps handler mode wrapped /\
    forall request env ctx w,
      wrapped request env ctx w
      = match gate_outcome mode (MODE env) with
        | Allowed => handler request env ctx w
        | MaintenanceBlock => (w, inl (MaintenanceError maintenance_message))
        | ConfigError =>
            (w, inl (HTTPError
                       (invalid_mode_message
                          (if includes modes (MODE env) then mode else MODE env))
                       503))
        end.
Proof.
  intros Hmode.
  destruct (withMode_wraps handler Hmode) as [wrapped [Hwraps Hcall]].
  exists wrapped. split; [exact Hwraps |].
  intros request env ctx w. rewrite Hcall. unfold gate_outcome.
  destruct (includes modes (MODE env)) eqn:Em; cbn [negb].
  - apply includes_In in Em.
    destruct (includes modes mode) eqn:Er; cbn [negb].
    + apply includes_In in Er. rewrite (enabled_valid env _ Em Er).
      now destruct (every _ _).
    + apply includes_not_In in Er.
      now rewrite (enabled_bad_requirement env _ Em Er).
  - apply includes_not_In in Em.
    now rewrite (enabled_bad_runtime mode env _ Em).
Qed.

Lemma gate_outcome_allowed (req m : string) :
  gate_outcome req m = Allowed
  <-> In m modes /\ In req modes /\ satisfies req m = true.
Proof.
  unfold gate_outcome, satisfies. rewrite <- !includes_In.
  destruct (includes modes m), (includes modes req),
    (every (bit_enabled (split_chars m)) (split_chars req)); cbn;
    split; try discriminate; try (intros [? [? ?]]; discriminate); auto.
Qed.

(** X4. Whatever the requirement (other than [--]) and whatever the [MODE]
    of the environment, one request through the wrapped handler either
    invokes the handler once, with the [request], [env] and [ctx] received,
    and returns what it did, or invokes nothing, leaves the world as it was
    and raises a value of status 503 that is not a plain [Error]. *)
Theorem handler_called_at_most_once (W : Type) (handler : Handler W)
    (mode : string) :
  mode <> NO_READ_OR_WRITE ->
  exists wrapped,
    wraps (spy handler) mode wrapped /\
    forall request env ctx (log : list Call) (w : W),
      wrapped request env ctx (log, w)
      = ((log ++ [(request, env, ctx)])%list,
         fst (handler request env ctx w),
         snd (handler request env ctx w))
      \/ exists e,
           wrapped request env ctx (log, w) = (log, w, inl e) /\
           status_of e = Some 503%Z /\
           class_of e <> PlainErrorClass.
Proof.
  intros Hmode.
  destruct (withMode_call_eq (spy handler) Hmode) as [wrapped [Hwraps Hcall]].
  exists wrapped. split; [exact Hwraps |].
  intros request env ctx log w. rewrite Hcall.
  destruct (gate_outcome mode (MODE env)).
  - left. apply spy_call.
  - right. eexists. split; [reflexivity |]. split; [reflexivity | discriminate].
  - right. eexists. split; [reflexivity |]. split; [reflexivity | discriminate].
Qed.

(** X5. Wrapping a handler under one requirement and the result under
    another, both among [r-] and [rw], gives a handler that behaves on every
    request, in every environment and every world, as the handler wrapped
    once under the stricter of the two.  In particular wrapping twice under
    the same requirement is wrapping once. *)
Theorem double_wrap_is_stricter (W : Type) (handler : Handler W)
    (req1 req2 : string) :
  In req1 [READ_ONLY; READ_WRITE] -> In req2 [READ_ONLY; READ_WRITE] ->
  exists inner outer single,
    wraps handler req1 inner /\
    wraps inner req2 outer /\
    wraps handler (stricter req1 req2) single /\
    forall request env ctx w,
      outer request env ctx w = single request env ctx w.
Proof.
  intros H1 H2.
  assert (Hs : stricter req1 req2 <> NO_READ_OR_WRITE)
    by (destruct H1 as [<- | [<- | []]], H2 as [<- | [<- | []]]; discriminate).
  destruct (withMode_call_eq handler (requirement_not_blocked H1))
    as [inner [Hinner Hin]].
  destruct (withMode_call_eq inner (requirement_not_blocked H2))
    as [outer [Houter Hout]].
  destruct (withMode_call_eq handler Hs) as [single [Hsingle Hsin]].
  exists inner, outer, single. repeat (split; [assumption |]).
  intros request env ctx w. rewrite Hout, Hin, Hsin.
  destruct (includes modes (MODE env)) eqn:Em.
  - apply includes_In in Em.
    destruct Em as [Em | [Em | [Em | []]]]; rewrite <- Em;
      destruct H1 as [<- | [<- | []]], H2 as [<- | [<- | []]]; reflexivity.
  - unfold gate_outcome. rewrite Em. reflexivity.
Qed.

(** X6. For two requirements among [r-] and [rw] the order of wrapping does
    not matter: the handler wrapped under the first and then the second
    behaves on every request as the handler wrapped under the second and then
    the first. *)
Theorem double_wrap_commutes (W : Type) (handler : Handler W)
    (req1 req2 : string) :
  In req1 [READ_ONLY; READ_WRITE] -> In req2 [READ_ONLY; READ_WRITE] ->
  exists inner1 outer1 inner2 outer2,
    wraps handler req1 inner1 /\ wraps inner1 req2 outer1 /\
    wraps handler req2 inner2 /\ wraps inner2 req1 outer2 /\
    forall request env ctx w,
      outer1 request env ctx w = outer2 request env ctx w.
Proof.
  intros H1 H2.
  destruct (withMode_call_eq handler (requirement_not_blocked H1))
    as [inner1 [Hinner1 Hin1]].
  destruct (withMode_call_eq inner1 (requirement_not_blocked H2))
    as [outer1 [Houter1 Hout1]].
  destruct (withMode_call_eq handler (requirement_not_blocked H2))
    as [inner2 [Hinner2 Hin2]].
  destruct (withMode_call_eq inner2 (requirement_not_blocked H1))
    as [outer2 [Houter2 Hout2]].
  exists inner1, outer1, inner2, outer2. repeat (split; [assumption |]).
  intros request env ctx w. rewrite Hout1, Hin1, Hout2, Hin2.
  destruct (includes modes (MODE env)) eqn:Em.
  - apply includes_In in Em.
    destruct Em as [Em | [Em | [Em | []]]]; rewrite <- Em;
      destruct H1 as [<- | [<- | []]], H2 as [<- | [<- | []]]; reflexivity.
  - unfold gate_outcome. rewrite Em. reflexivity.
Qed.

(** X7. A request that is allowed stays allowed when the runtime mode is
    replaced by a mode that satisfies it: if a wrapped spy is invoked under
    [env1], and the [MODE] of [env2] is one of the three modes and satisfies
    the [MODE] of [env1], the wrapped spy is invoked under [env2] too. *)
Theorem more_permissive_mode_still_allows (W : Type) (handler : Handler W)
    (req : string) (request : Request) (env1 env2 : Env Bindings) (ctx : Ctx)
    (st : list Call * W) :
  req <> NO_READ_OR_WRITE ->
  observe handler req request env1 ctx st = Some Allowed ->
  In (MODE env2) modes ->
  satisfies (MODE env1) (MODE env2) = true ->
  observe handler req request env2 ctx st = Some Allowed.
Proof.
  intros Hreq Hfirst Hm2 Hsat.
  rewrite observe_outcome in * by exact Hreq.
  injection Hfirst as Hfirst. f_equal.
  apply gate_outcome_allowed in Hfirst. destruct Hfirst as [_ [Hr Hsat1]].
  apply gate_outcome_allowed. split; [exact Hm2 |]. split; [exact Hr |].
  destruct satisfies_preorder as [_ Htrans].
  exact (Htrans _ _ _ Hsat1 Hsat).
Qed.

(** X8. Under the runtime mode [--] no wrapped handler is invoked, whatever
    its requirement: the world and the spy's log are as they were and the
    value raised has status 503; for a requirement among [r-] and [rw] it is
    the [MaintenanceError]. *)
Theorem no_read_or_write_blocks_every_handler (W : Type) (handler : Handler W)
    (mode : string) (request : Request) (env : Env Bindings) (ctx : Ctx)
    (log : list Call) (w : W) :
  mode <> NO_READ_OR_WRITE -> MODE env = NO_READ_OR_WRITE ->
  exists wrapped e,
    wraps (spy handler) mode wrapped /\
    wrapped request env ctx (log, w) = (log, w, inl e) /\
    status_of e = Some 503%Z /\
    (In mode [READ_ONLY; READ_WRITE] ->
     e = MaintenanceError maintenance_message).
Proof.
  intros Hmode Henv.
  destruct (withMode_call_eq (spy handler) Hmode) as [wrapped [Hwraps Hcall]].
  exists wrapped.
  destruct (includes modes mode) eqn:Er.
  - apply includes_In in Er.
    destruct Er as [Er | [Er | [Er | []]]];
      [now elim Hmode | |];
      exists (MaintenanceError maintenance_message);
      (split; [exact Hwraps |]);
      (split; [rewrite Hcall, Henv, <- Er; reflexivity |]);
      (split; [reflexivity | reflexivity]).
  - exists (HTTPError (invalid_mode_message mode) 503).
    split; [exact Hwraps |]. split.
    + rewrite Hcall, Henv. unfold gate_outcome. rewrite Er. reflexivity.
    + split; [reflexivity |]. intros Hin.
      apply requirement_is_mode, includes_In in Hin. congruence.
Qed.

(** X9. Under [DEFAULT_MODE] every handler wrapped under a requirement among
    [r-] and [rw] is invoked: the call through the gate is the call of the
    handler. *)
Theorem default_mode_allows_every_handler (W : Type) (handler : Handler W)
    (req : string) (request : Request) (env : Env Bindings) (ctx : Ctx) (w : W) :
  In req [READ_ONLY; READ_WRITE] -> MODE env = DEFAULT_MODE ->
  exists wrapped,
    wraps handler req wrapped /\
    wrapped request env ctx w = handler request env ctx w.
Proof.
  intros Hreq Henv.
  destruct (withMode_call_eq handler (requirement_not_blocked Hreq))
    as [wrapped [Hwraps Hcall]].
  exists wrapped. split; [exact Hwraps |].
  rewrite Hcall, Henv. destruct Hreq as [<- | [<- | []]]; reflexivity.
Qed.

End Composition.

(** ** The message of the configuration error *)





(** ** The further properties at concrete requests *)

Lemma modeBits_returns_bits_witness :
  exists bits,
    modeBits READ_ONLY 0 = (0, inr bits) /\
    length bits = 2 /\
    Forall (fun bit => String.length bit = 1) bits /\
    String.concat EmptyString bits = READ_ONLY.
Proof.
  apply (modeBits_returns_bits (m:=READ_ONLY) 0); mode_facts.
Defined.

Lemma handler_called_at_most_once_witness :
  exists wrapped,
    wraps (spy echo) "xx" wrapped /\
    forall request env ctx (log : list (Call nat unit unit)) (w : nat),
      wrapped request env ctx (log, w)
      = ((log ++ [(request, env, ctx)])%list,
         fst (echo request env ctx w),
         snd (echo request env ctx w))
      \/ exists e,
           wrapped request env ctx (log, w) = (log, w, inl e) /\
           status_of e = Some 503%Z /\
           class_of e <> PlainErrorClass.
Proof.
  apply (handler_called_at_most_once echo (mode:="xx")); mode_facts.
Defined.

Lemma double_wrap_is_stricter_witness :
  exists inner outer single,
    wraps echo READ_ONLY inner /\
    wraps inner READ_WRITE outer /\
    wraps echo (stricter READ_ONLY READ_WRITE) single /\
    forall request env ctx w,
      outer request env ctx w = single request env ctx w.
Proof.
  apply (double_wrap_is_stricter echo (req1:=READ_ONLY) (req2:=READ_WRITE));
    mode_facts.
Defined.

Lemma double_wrap_commutes_witness :
  exists inner1 outer1 inner2 outer2,
    wraps echo READ_ONLY inner1 /\ wraps inner1 READ_WRITE outer1 /\
    wraps echo READ_WRITE inner2 /\ wraps inner2 READ_ONLY outer2 /\
    forall request env ctx w,
      outer1 request env ctx w = outer2 request env ctx w.
Proof.
  apply (double_wrap_commutes echo (req1:=READ_ONLY) (req2:=READ_WRITE));
    mode_facts.
Defined.

Lemma more_permissive_mode_still_allows_witness :
  observe echo READ_ONLY 7 (env_with READ_WRITE) tt ([], 0) = Some Allowed.
Proof.
  apply (more_permissive_mode_still_allows echo (req:=READ_ONLY) 7
           (env_with READ_ONLY) (env_with READ_WRITE) tt ([], 0));
    mode_facts.
Defined.

Lemma no_read_or_write_blocks_every_handler_witness :
  exists wrapped e,
    wraps (spy echo) READ_ONLY wrapped /\
    wrapped 7 (env_with NO_READ_OR_WRITE) tt ([], 0) = ([], 0, inl e) /\
    status_of e = Some 503%Z /\
    (In READ_ONLY [READ_ONLY; READ_WRITE] ->
     e = MaintenanceError maintenance_message).
Proof.
  apply (no_read_or_write_blocks_every_handler echo (mode:=READ_ONLY) 7
           (env_with NO_READ_OR_WRITE) tt [] 0);
    mode_facts.
Defined.

Lemma default_mode_allows_every_handler_witness :
  exists wrapped,
    wraps echo READ_WRITE wrapped /\
    wrapped 7 (env_with DEFAULT_MODE) tt 0 = echo 7 (env_with DEFAULT_MODE) tt 0.
Proof.
  apply (default_mode_allows_every_handler echo (req:=READ_WRITE) 7
           (env_with DEFAULT_MODE) tt 0);
    mode_facts.
Defined.

